(** * main.ts: behaviour layer of the marketing page

    A shallow embedding of [src/main.ts] (mobile menu toggle, smooth
    scrolling of fragment links, contact form handling, button routing and
    the DOMContentLoaded bootstrap) together with the part of the browser
    the script talks to: a document tree, selector lookup, class token
    lists, form controls, event listeners and the observable effects
    (console lines, alerts, scroll requests, uncaught faults).

    Strings are byte strings; text outside ASCII appears UTF-8 encoded. *)

From Stdlib Require Import String Ascii List Bool Arith Lia.
Import ListNotations.
Local Open Scope string_scope.
Local Open Scope list_scope.

#[local] Set Warnings "-register-all".

(** ** Strings as the script uses them *)

Module Js.

(** Truthiness of a string value that may be [undefined]/[null]:
    only a non-empty string is truthy. *)
Definition truthy (v : option string) : bool :=
  match v with
  | Some s => negb (s =? "")
  | None => false
  end.

(** What a template literal prints for a value. *)
Definition display (v : option string) : string :=
  match v with
  | Some s => s
  | None => "undefined"
  end.

Definition code (c : ascii) : nat := nat_of_ascii c.

(** White space and line terminators of ECMAScript, one code point at a
    time.  One byte: TAB, LF, VT, FF, CR, SP. *)
Definition ws1 (c : ascii) : bool :=
  (((9 <=? code c) && (code c <=? 13)) || (code c =? 32))%nat.

(** Two bytes: U+00A0. *)
Definition ws2 (c d : ascii) : bool :=
  ((code c =? 194) && (code d =? 160))%nat.

(** Three bytes: U+1680, U+2000..U+200A, U+2028, U+2029, U+202F, U+205F,
    U+3000, U+FEFF. *)
Definition ws3 (c d f : ascii) : bool :=
  (((code c =? 225) && (code d =? 154) && (code f =? 128))
   || ((code c =? 226) && (code d =? 128)
       && (((128 <=? code f) && (code f <=? 138))
           || (code f =? 168) || (code f =? 169) || (code f =? 175)))
   || ((code c =? 226) && (code d =? 129) && (code f =? 159))
   || ((code c =? 227) && (code d =? 128) && (code f =? 128))
   || ((code c =? 239) && (code d =? 187) && (code f =? 191)))%nat.

Fixpoint trimStart (s : string) : string :=
  match s with
  | EmptyString => EmptyString
  | String c r =>
      if ws1 c then trimStart r
      else
        match r with
        | EmptyString => s
        | String d r1 =>
            if ws2 c d then trimStart r1
            else
              match r1 with
              | EmptyString => s
              | String f r2 => if ws3 c d f then trimStart r2 else s
              end
        end
  end.

Fixpoint trimEnd (s : string) : string :=
  match s with
  | EmptyString => EmptyString
  | String c r =>
      if trimStart s =? "" then EmptyString else String c (trimEnd r)
  end.

(** [String.prototype.trim]. *)
Definition trim (s : string) : string := trimEnd (trimStart s).

End Js.

(** ** The document *)

(** An element node: [uid] stands for the identity of the JavaScript
    object, [tagName] is the lower-case local name, [classList] the class
    tokens, [attrs] the other content attributes, and [value] the current
    value of a form control. *)
Record Elem := mkElem {
  uid : nat;
  tagName : string;
  classList : list string;
  attrs : list (string * string);
  value : string
}.

Inductive Node :=
| Element (e : Elem) (children : list Node)
| Text (data : string).

Definition Document := list Node.

Definition first_some {A B} (f : A -> option B) : list A -> option B :=
  fix go (l : list A) : option B :=
    match l with
    | [] => None
    | x :: l' =>
        match f x with
        | Some b => Some b
        | None => go l'
        end
    end.

Fixpoint lookup_attr (name : string) (l : list (string * string))
  : option string :=
  match l with
  | [] => None
  | (k, v) :: l' => if k =? name then Some v else lookup_attr name l'
  end.

(** [el.getAttribute(name)]. *)
Definition getAttribute (e : Elem) (name : string) : option string :=
  lookup_attr name (attrs e).

Definition concat_all (l : list string) : string :=
  fold_right append "" l.

(** [node.textContent]: the text of all descendant text nodes, in order. *)
Fixpoint textContent (n : Node) : string :=
  match n with
  | Text s => s
  | Element _ ks => concat_all (map textContent ks)
  end.

Definition textContent_of (ks : list Node) : string :=
  concat_all (map textContent ks).

(** All elements of a forest, in document (pre-)order. *)
Fixpoint elements_of (n : Node) : list Elem :=
  match n with
  | Text _ => []
  | Element e ks => e :: flat_map elements_of ks
  end.

Definition elements (d : list Node) : list Elem := flat_map elements_of d.

(** The first element with a given identity, with its children. *)
Fixpoint find_node (u : nat) (n : Node) : option (Elem * list Node) :=
  match n with
  | Text _ => None
  | Element e ks =>
      if (uid e =? u)%nat then Some (e, ks) else first_some (find_node u) ks
  end.

Definition find_elem (u : nat) (d : list Node) : option (Elem * list Node) :=
  first_some (find_node u) d.

(** In-place mutation of the element object with identity [u]. *)
Fixpoint update_node (u : nat) (f : Elem -> Elem) (n : Node) : Node :=
  match n with
  | Text s => Text s
  | Element e ks =>
      Element (if (uid e =? u)%nat then f e else e) (map (update_node u f) ks)
  end.

Definition update_elem (u : nat) (f : Elem -> Elem) (d : list Node)
  : list Node :=
  map (update_node u f) d.

Definition set_classList (cl : list string) (e : Elem) : Elem :=
  mkElem (uid e) (tagName e) cl (attrs e) (value e).

Definition set_value (v : string) (e : Elem) : Elem :=
  mkElem (uid e) (tagName e) (classList e) (attrs e) v.

(** ** Class token lists *)

Module DOMTokenList.

Definition contains (token : string) (cl : list string) : bool :=
  existsb (String.eqb token) cl.

Definition remove (token : string) (cl : list string) : list string :=
  filter (fun t => negb (token =? t)) cl.

(** [classList.toggle(token)]: remove the token when present, append it
    otherwise. *)
Definition toggle (token : string) (cl : list string) : list string :=
  if contains token cl then remove token cl else cl ++ [token].

(** The toggles of one click, applied to a class list. *)
Definition toggle_all (tokens cl : list string) : list string :=
  fold_left (fun acc t => toggle t acc) tokens cl.

Definition mem (t : string) (l : list string) : bool :=
  existsb (String.eqb t) l.

End DOMTokenList.

(** ** Selectors *)

Inductive Simple :=
| SType (t : string)              (* button *)
| SId (i : string)                (* #contact *)
| SClass (c : string)             (* .hidden *)
| SAttrEq (a v : string)          (* [placeholder="Subject"] *)
| SAttrPrefix (a v : string).     (* [href^="#"] *)

Definition Compound := list Simple.

(** A chain of compounds joined by the descendant combinator: the
    [context] compounds, outermost first, then the [subject].  Tag names
    are lower case and ids compare exactly, as in a standards-mode HTML
    document. *)
Record Selector := mkSelector {
  context : list Compound;
  subject : Compound
}.

Definition matches_simple (e : Elem) (s : Simple) : bool :=
  match s with
  | SType t => tagName e =? t
  | SId i =>
      match getAttribute e "id" with
      | Some x => x =? i
      | None => false
      end
  | SClass c => DOMTokenList.contains c (classList e)
  | SAttrEq a v =>
      match getAttribute e a with
      | Some x => x =? v
      | None => false
      end
  | SAttrPrefix a v =>
      match getAttribute e a with
      | Some x => negb (v =? "") && String.prefix v x
      | None => false
      end
  end.

Definition matches_compound (c : Compound) (e : Elem) : bool :=
  forallb (matches_simple e) c.

(** Matches of a selector below a node, in document order.  [pending] is
    what is left of the context once the ancestors met so far have taken,
    outermost first, the compounds they match. *)
Fixpoint select_node (pending : list Compound) (subj : Compound) (n : Node)
  : list (Elem * list Node) :=
  match n with
  | Text _ => []
  | Element e ks =>
      let here :=
        match pending with
        | [] => if matches_compound subj e then [(e, ks)] else []
        | _ :: _ => []
        end in
      let pending' :=
        match pending with
        | [] => []
        | c :: rest => if matches_compound c e then rest else pending
        end in
      here ++ flat_map (select_node pending' subj) ks
  end.

Definition select_all (sel : Selector) (d : list Node)
  : list (Elem * list Node) :=
  flat_map (select_node (context sel) (subject sel)) d.

Definition select_first (sel : Selector) (d : list Node)
  : option (Elem * list Node) :=
  hd_error (select_all sel d).

(** Selectors that arrive as text at run time (a link's [href] handed to
    [document.querySelector]).  A hash followed by ASCII name characters is
    an ID selector when the characters start an identifier ([#services],
    [#-x]), and is not a selector at all when they do not ([#2024], [#-1],
    [#-]); the empty text and the bare [#] are not selectors either.
    Everything else (combinators, escapes, a leading double hyphen, text
    outside ASCII) is left to the host. *)
Module Css.

Definition code (c : ascii) : nat := nat_of_ascii c.

Definition letter (c : ascii) : bool :=
  (((65 <=? code c) && (code c <=? 90))
   || ((97 <=? code c) && (code c <=? 122)))%nat.

Definition digit (c : ascii) : bool :=
  ((48 <=? code c) && (code c <=? 57))%nat.

Definition name_start (c : ascii) : bool :=
  letter c || (code c =? 95)%nat.

Definition hyphen (c : ascii) : bool := (code c =? 45)%nat.

Definition name_char (c : ascii) : bool :=
  name_start c || digit c || hyphen c.

Fixpoint all_name (s : string) : bool :=
  match s with
  | EmptyString => true
  | String c r => name_char c && all_name r
  end.

Definition starts_ident (s : string) : bool :=
  match s with
  | EmptyString => false
  | String c r =>
      name_start c
      || (hyphen c
          && match r with
             | EmptyString => false
             | String d _ => name_start d
             end)
  end.

Definition double_hyphen (s : string) : bool :=
  match s with
  | String c (String d _) => hyphen c && hyphen d
  | _ => false
  end.

Inductive Parsed :=
| IdSelector (i : string)
| Invalid
| Unmodelled.

Definition parse (s : string) : Parsed :=
  match s with
  | EmptyString => Invalid
  | String c r =>
      if (code c =? 35)%nat then
        match r with
        | EmptyString => Invalid
        | String _ _ =>
            if all_name r && negb (double_hyphen r)
            then if starts_ident r then IdSelector r else Invalid
            else Unmodelled
        end
      else Unmodelled
  end.

End Css.

(** ** Effects, listeners and the world the script runs in *)

Inductive Error :=
| TypeError (reading : string)      (* property read on null *)
| SyntaxError (selector : string).  (* not a valid selector *)

Inductive Result (A : Type) :=
| Ok (a : A)
| Throw (e : Error).
Arguments Ok {A} a.
Arguments Throw {A} e.

Inductive ScrollBehavior := Smooth | Instant | AutoBehavior.
Inductive ScrollBlock := Start | Center | End_ | Nearest.

(** The options object handed to [scrollIntoView]; an omitted [block] is
    [None] and the host then aligns to the start. *)
Record ScrollOptions := mkScrollOptions {
  behavior : ScrollBehavior;
  block : option ScrollBlock
}.

Definition effective_block (o : ScrollOptions) : ScrollBlock :=
  match block o with
  | Some b => b
  | None => Start
  end.

Inductive Effect :=
| ConsoleLog (line : string)
| Alert (message : string)
| PreventDefault
| ScrollIntoView (target : nat) (options : ScrollOptions)
| Uncaught (e : Error).

(** Closures handed to [addEventListener], with what they capture. *)
Inductive Handler :=
| ReadyHandler
| MenuClickHandler (mobileMenu : option nat)
| LinkClickHandler (link : nat)
| FormSubmitHandler (form : nat)
| ContactButtonHandler
| PortfolioButtonHandler.

Inductive EventTarget :=
| TheDocument
| TheElement (u : nat).

Record Listener := mkListener {
  target : EventTarget;
  event_type : string;
  callback : Handler
}.

Record World := mkWorld {
  dom : Document;
  listeners : list Listener;
  effects : list Effect
}.

Definition set_dom (d : Document) (w : World) : World :=
  mkWorld d (listeners w) (effects w).

Definition add_listeners (ls : list Listener) (w : World) : World :=
  mkWorld (dom w) (listeners w ++ ls) (effects w).

Definition emit (es : list Effect) (w : World) : World :=
  mkWorld (dom w) (listeners w) (effects w ++ es).

(** Computations: a result or a thrown error, and the world as it is at
    that point (what was done before a throw stays done). *)
Definition M (A : Type) : Type := World -> Result A * World.

Definition ret {A} (a : A) : M A := fun w => (Ok a, w).

Definition throw {A} (e : Error) : M A := fun w => (Throw e, w).

Definition bind {A B} (m : M A) (k : A -> M B) : M B :=
  fun w =>
    match m w with
    | (Ok a, w') => k a w'
    | (Throw e, w') => (Throw e, w')
    end.

Declare Scope js_scope.
Delimit Scope js_scope with js.
Notation "x <- m ;; k" := (bind m (fun x => k))
  (at level 61, m at next level, right associativity) : js_scope.
Notation "m ;; k" := (bind m (fun _ => k))
  (at level 61, right associativity) : js_scope.
Local Open Scope js_scope.

Fixpoint forEach {A} (l : list A) (body : A -> M unit) : M unit :=
  match l with
  | [] => ret tt
  | x :: l' => body x ;; forEach l' body
  end.

Definition perform (e : Effect) : M unit := fun w => (Ok tt, emit [e] w).

Definition console_log (line : string) : M unit := perform (ConsoleLog line).
Definition alert (message : string) : M unit := perform (Alert message).
Definition preventDefault : M unit := perform PreventDefault.

(** [document.querySelector(sel)] and [document.querySelectorAll(sel)] for
    a selector written in the script. *)
Definition document_querySelector (sel : Selector)
  : M (option (Elem * list Node)) :=
  fun w => (Ok (select_first sel (dom w)), w).

Definition document_querySelectorAll (sel : Selector)
  : M (list (Elem * list Node)) :=
  fun w => (Ok (select_all sel (dom w)), w).

(** [el.addEventListener(type, handler)]; [el] may be null behind a
    non-null assertion, and the call then throws. *)
Definition addEventListener (el : option (Elem * list Node))
  (type : string) (h : Handler) : M unit :=
  match el with
  | None => throw (TypeError "addEventListener")
  | Some (e, _) =>
      fun w => (Ok tt, add_listeners [mkListener (TheElement (uid e)) type h] w)
  end.

Definition document_addEventListener (type : string) (h : Handler)
  : M unit :=
  fun w => (Ok tt, add_listeners [mkListener TheDocument type h] w).

(** [el.classList.toggle(token)] on a captured element. *)
Definition classList_toggle (el : option nat) (token : string) : M unit :=
  match el with
  | None => throw (TypeError "classList")
  | Some u =>
      fun w =>
        (Ok tt,
         set_dom
           (update_elem u
              (fun e => set_classList (DOMTokenList.toggle token (classList e)) e)
              (dom w))
           w)
  end.

(** [el.getAttribute(name)] on a captured element, read from the document
    as it is now. *)
Definition Element_getAttribute (el : nat) (name : string)
  : M (option string) :=
  fun w =>
    (Ok match find_elem el (dom w) with
        | Some (e, _) => getAttribute e name
        | None => None
        end,
     w).

(** [el.querySelector(compound)]: the first descendant of the captured
    element matching a selector without combinators. *)
Definition Element_querySelector (el : nat) (c : Compound)
  : M (option Elem) :=
  fun w =>
    (Ok match find_elem el (dom w) with
        | Some (_, ks) =>
            option_map fst (hd_error (flat_map (select_node [] c) ks))
        | None => None
        end,
     w).

Definition scrollIntoView (e : Elem) (o : ScrollOptions) : M unit :=
  perform (ScrollIntoView (uid e) o).

(** [form.reset()]: every text control below the form goes back to its
    default value: the [value] attribute of an [input] (the empty string
    when there is none), the text content of a [textarea].  Inputs are
    taken to be text inputs; other kinds of control are left alone. *)
Definition default_value (e : Elem) (ks : list Node) : option string :=
  if tagName e =? "input" then
    Some match getAttribute e "value" with
         | Some v => v
         | None => ""
         end
  else if tagName e =? "textarea" then Some (textContent_of ks)
  else None.

Definition reset_control (e : Elem) (ks : list Node) : Elem :=
  match default_value e ks with
  | Some v => set_value v e
  | None => e
  end.

Fixpoint reset_node (n : Node) : Node :=
  match n with
  | Text s => Text s
  | Element e ks => Element (reset_control e ks) (map reset_node ks)
  end.

Fixpoint reset_below (u : nat) (n : Node) : Node :=
  match n with
  | Text s => Text s
  | Element e ks =>
      if (uid e =? u)%nat then Element e (map reset_node ks)
      else Element e (map (reset_below u) ks)
  end.

Definition form_reset (form : nat) : M unit :=
  fun w => (Ok tt, set_dom (map (reset_below form) (dom w)) w).

(** ** The script *)

(** ['.md\\:hidden button'] *)
Definition sel_mobileMenuButton : Selector :=
  mkSelector [[SClass "md:hidden"]] [SType "button"].

(** ['.hidden.md\\:flex'] *)
Definition sel_mobileMenu : Selector :=
  mkSelector [] [SClass "hidden"; SClass "md:flex"].

(** ['a[href^="#"]'] *)
Definition sel_navLinks : Selector :=
  mkSelector [] [SType "a"; SAttrPrefix "href" "#"].

(** ['form'] *)
Definition sel_form : Selector := mkSelector [] [SType "form"].

(** ['input[placeholder="Your Name"]'] and its siblings, ['textarea'] *)
Definition sel_nameInput : Compound :=
  [SType "input"; SAttrEq "placeholder" "Your Name"].
Definition sel_emailInput : Compound :=
  [SType "input"; SAttrEq "placeholder" "Your Email"].
Definition sel_subjectInput : Compound :=
  [SType "input"; SAttrEq "placeholder" "Subject"].
Definition sel_messageInput : Compound := [SType "textarea"].

(** ['button'] *)
Definition sel_button : Selector := mkSelector [] [SType "button"].

(** ['#contact'], ['#portfolio'] *)
Definition sel_contact : Selector := mkSelector [] [SId "contact"].
Definition sel_portfolio : Selector := mkSelector [] [SId "portfolio"].

Definition log_start : string := "🚀 Website initialized with TypeScript!".
Definition log_done : string := "✅ All functionality is now active!".

Definition success_message (name email : option string) : string :=
  "Thank you " ++ Js.display name
  ++ "! Your message has been received. We'll get back to you at "
  ++ Js.display email ++ " soon!".

Definition failure_message : string :=
  "Please fill in all fields before submitting.".

(** The ten class tokens the menu handler toggles, in source order. *)
Definition menu_tokens : list string :=
  ["hidden"; "flex"; "flex-col"; "absolute"; "top-16"; "left-0"; "w-full";
   "bg-white"; "shadow-lg"; "p-4"].

Definition smooth_start : ScrollOptions := mkScrollOptions Smooth (Some Start).
Definition smooth_only : ScrollOptions := mkScrollOptions Smooth None.

(** [setupMobileMenu] *)
Definition setupMobileMenu : M unit :=
  mobileMenuButton <- document_querySelector sel_mobileMenuButton ;;
  mobileMenu <- document_querySelector sel_mobileMenu ;;
  addEventListener mobileMenuButton "click"
    (MenuClickHandler (option_map (fun m => uid (fst m)) mobileMenu)).

(** The click listener of [setupMobileMenu]. *)
Definition menu_click (mobileMenu : option nat) : M unit :=
  classList_toggle mobileMenu "hidden" ;;
  classList_toggle mobileMenu "flex" ;;
  classList_toggle mobileMenu "flex-col" ;;
  classList_toggle mobileMenu "absolute" ;;
  classList_toggle mobileMenu "top-16" ;;
  classList_toggle mobileMenu "left-0" ;;
  classList_toggle mobileMenu "w-full" ;;
  classList_toggle mobileMenu "bg-white" ;;
  classList_toggle mobileMenu "shadow-lg" ;;
  classList_toggle mobileMenu "p-4".

(** [setupSmoothScrolling] *)
Definition setupSmoothScrolling : M unit :=
  navLinks <- document_querySelectorAll sel_navLinks ;;
  forEach navLinks (fun link =>
    addEventListener (Some link) "click" (LinkClickHandler (uid (fst link)))).

(** [setupContactForm] *)
Definition setupContactForm : M unit :=
  form <- document_querySelector sel_form ;;
  match form with
  | Some f => addEventListener form "submit" (FormSubmitHandler (uid (fst f)))
  | None => ret tt
  end.

(** The submit listener of [setupContactForm]. *)
Definition form_submit (form : nat) : M unit :=
  preventDefault ;;
  nameInput <- Element_querySelector form sel_nameInput ;;
  emailInput <- Element_querySelector form sel_emailInput ;;
  subjectInput <- Element_querySelector form sel_subjectInput ;;
  messageInput <- Element_querySelector form sel_messageInput ;;
  let name := option_map value nameInput in
  let email := option_map value emailInput in
  let subject := option_map value subjectInput in
  let message := option_map value messageInput in
  if Js.truthy name && Js.truthy email && Js.truthy subject
     && Js.truthy message
  then alert (success_message name email) ;; form_reset form
  else alert failure_message.

(** The two click listeners of [setupButtons]. *)
Definition contact_click : M unit :=
  contactSection <- document_querySelector sel_contact ;;
  match contactSection with
  | Some s => scrollIntoView (fst s) smooth_only
  | None => ret tt
  end.

Definition portfolio_click : M unit :=
  portfolioSection <- document_querySelector sel_portfolio ;;
  match portfolioSection with
  | Some s => scrollIntoView (fst s) smooth_only
  | None => ret tt
  end.

(** [setupButtons] *)
Definition setupButtons : M unit :=
  getStartedButtons <- document_querySelectorAll sel_button ;;
  forEach getStartedButtons (fun button =>
    let buttonText := Js.trim (textContent_of (snd button)) in
    if (buttonText =? "Get Started") || (buttonText =? "Get a Quote")
    then addEventListener (Some button) "click" ContactButtonHandler
    else if buttonText =? "View Work"
    then addEventListener (Some button) "click" PortfolioButtonHandler
    else ret tt).

(** The DOMContentLoaded listener of [init]. *)
Definition on_ready : M unit :=
  console_log log_start ;;
  setupMobileMenu ;;
  setupSmoothScrolling ;;
  setupContactForm ;;
  setupButtons ;;
  console_log log_done.

(** [init] *)
Definition init : M unit :=
  document_addEventListener "DOMContentLoaded" ReadyHandler.

Section Host.

(** What the host's selector engine answers on selector text outside the
    fragment [Css.parse] covers. *)
Variable other_selectors : string -> Document -> Result (option Elem).

(** What [document.querySelector(text)] finds, or throws, for selector
    text computed at run time. *)
Definition resolve_text (text : string) (d : Document)
  : Result (option Elem) :=
  match Css.parse text with
  | Css.IdSelector i =>
      Ok (option_map fst (select_first (mkSelector [] [SId i]) d))
  | Css.Invalid => Throw (SyntaxError text)
  | Css.Unmodelled => other_selectors text d
  end.

Definition document_querySelector_text (text : string)
  : M (option Elem) :=
  fun w => (resolve_text text (dom w), w).

(** The click listener of [setupSmoothScrolling]; the test
    [targetId && targetId !== '#'] is the inner [if] on a present
    attribute and fails on an absent one. *)
Definition link_click (link : nat) : M unit :=
  preventDefault ;;
  targetId <- Element_getAttribute link "href" ;;
  match targetId with
  | Some sel =>
      if negb (sel =? "") && negb (sel =? "#") then
        targetSection <- document_querySelector_text sel ;;
        match targetSection with
        | Some s => scrollIntoView s smooth_start
        | None => ret tt
        end
      else ret tt
  | None => ret tt
  end.

Definition run_handler (h : Handler) : M unit :=
  match h with
  | ReadyHandler => on_ready
  | MenuClickHandler mobileMenu => menu_click mobileMenu
  | LinkClickHandler link => link_click link
  | FormSubmitHandler form => form_submit form
  | ContactButtonHandler => contact_click
  | PortfolioButtonHandler => portfolio_click
  end.

Definition same_target (a b : EventTarget) : bool :=
  match a, b with
  | TheDocument, TheDocument => true
  | TheElement u, TheElement v => (u =? v)%nat
  | _, _ => false
  end.

(** A listener runs to completion; what it throws is reported by the
    host and does not stop the other listeners. *)
Definition invoke (h : Handler) (w : World) : World :=
  match run_handler h w with
  | (Ok _, w') => w'
  | (Throw e, w') => emit [Uncaught e] w'
  end.

(** Dispatch of an event at a target: the listeners registered on the
    target itself when the dispatch starts, in registration order.
    Propagation to the listeners of ancestors is not modelled. *)
Definition dispatch (t : EventTarget) (type : string) (w : World) : World :=
  fold_left
    (fun w' l =>
       if same_target (target l) t && (event_type l =? type)
       then invoke (callback l) w'
       else w')
    (listeners w) w.

Definition click (u : nat) : World -> World := dispatch (TheElement u) "click".
Definition submit (u : nat) : World -> World := dispatch (TheElement u) "submit".

(** A page load: the script runs [init()] on a fresh page, then the host
    signals DOMContentLoaded once. *)
Definition fresh (d : Document) : World := mkWorld d [] [].

Definition page_script (d : Document) : World := snd (init (fresh d)).

Definition page_load (d : Document) : World :=
  dispatch TheDocument "DOMContentLoaded" (page_script d).

End Host.

(** ** Observations used in the statements *)

(** What a lookup finds once [update_elem m f] has run. *)
Definition updated (m : nat) (f : Elem -> Elem) (x : Elem * list Node)
  : Elem * list Node :=
  ((if (uid (fst x) =? m)%nat then f (fst x) else fst x),
   map (update_node m f) (snd x)).

(** The class list of the element with identity [u], if it is in the
    document. *)
Definition classes_at (u : nat) (d : Document) : option (list string) :=
  option_map (fun x => classList (fst x)) (find_elem u d).

Definition has_class (token : string) (u : nat) (d : Document) : bool :=
  match classes_at u d with
  | Some cl => DOMTokenList.contains token cl
  | None => false
  end.

Definition retoken (g : list string -> list string) (e : Elem) : Elem :=
  set_classList (g (classList e)) e.

(** The document after the ten toggles of one click. *)
Definition toggled (m : nat) (d : Document) : Document :=
  fold_left
    (fun acc t => update_elem m (retoken (DOMTokenList.toggle t)) acc)
    menu_tokens d.

(** The presentation of the panel as its class list expresses it: closed
    when [hidden] is applied and none of the nine overlay tokens is, open
    when [hidden] is removed and all nine are applied. *)
Inductive Presentation := PanelOpen | PanelClosed | PanelMixed.

Definition overlay_tokens : list string := tl menu_tokens.

Definition presentation (cl : list string) : Presentation :=
  if DOMTokenList.contains "hidden" cl then
    if forallb (fun t => negb (DOMTokenList.contains t cl)) overlay_tokens
    then PanelClosed else PanelMixed
  else
    if forallb (fun t => DOMTokenList.contains t cl) overlay_tokens
    then PanelOpen else PanelMixed.

Definition flip (p : Presentation) : Presentation :=
  match p with
  | PanelOpen => PanelClosed
  | PanelClosed => PanelOpen
  | PanelMixed => PanelMixed
  end.

Definition panel_presentation (m : nat) (d : Document) : option Presentation :=
  option_map presentation (classes_at m d).

(** [n] clicks in succession on the menu trigger. *)
Fixpoint menu_clicks (n : nat) (mobileMenu : option nat) (w : World) : World :=
  match n with
  | 0 => w
  | S k => menu_clicks k mobileMenu (snd (menu_click mobileMenu w))
  end.



Definition menu_listener (b : Elem * list Node) (d : Document) : Listener :=
  mkListener (TheElement (uid (fst b))) "click"
    (MenuClickHandler
       (option_map (fun m => uid (fst m)) (select_first sel_mobileMenu d))).

Definition link_listener (l : Elem * list Node) : Listener :=
  mkListener (TheElement (uid (fst l))) "click" (LinkClickHandler (uid (fst l))).

Definition link_listeners (d : Document) : list Listener :=
  map link_listener (select_all sel_navLinks d).

Definition form_listeners (d : Document) : list Listener :=
  match select_first sel_form d with
  | Some f =>
      [mkListener (TheElement (uid (fst f))) "submit"
         (FormSubmitHandler (uid (fst f)))]
  | None => []
  end.

Definition button_label (b : Elem * list Node) : string :=
  Js.trim (textContent_of (snd b)).

Definition button_route (b : Elem * list Node) : list Listener :=
  if (button_label b =? "Get Started") || (button_label b =? "Get a Quote")
  then [mkListener (TheElement (uid (fst b))) "click" ContactButtonHandler]
  else if button_label b =? "View Work"
  then [mkListener (TheElement (uid (fst b))) "click" PortfolioButtonHandler]
  else [].



(** The listeners registered on one element. *)
Definition listeners_on (u : nat) (ls : list Listener) : list Listener :=
  filter (fun l => same_target (target l) (TheElement u)) ls.

Definition uid_of (x : Elem * list Node) : nat := uid (fst x).

(** What a handler reads at the moment it runs. *)
Definition href_now (link : nat) (w : World) : option string :=
  match fst (Element_getAttribute link "href" w) with
  | Ok v => v
  | Throw _ => None
  end.

Definition field_value (form : nat) (c : Compound) (w : World)
  : option string :=
  match fst (Element_querySelector form c w) with
  | Ok o => option_map value o
  | Throw _ => None
  end.

(** A field value is missing when its element is absent (the value is then
    undefined) or when it is the empty string. *)
Definition missing (v : option string) : Prop := v = None \/ v = Some "".


Definition alerts (es : list Effect) : list string :=
  flat_map (fun e => match e with Alert s => [s] | _ => [] end) es.

(** The effects a listener adds when invoked in a world. *)
Definition added_effects (before after : World) : list Effect :=
  skipn (length (effects before)) (effects after).

Definition has_id (i : string) (e : Elem) : bool := matches_compound [SId i] e.

(** The first element of the document, in document order, whose id is [i]. *)
Definition first_with_id (i : string) (d : Document) : option Elem :=
  find (has_id i) (elements d).


(** Every element of a tree with its children, in document order. *)
Fixpoint subtrees (n : Node) : list (Elem * list Node) :=
  match n with
  | Text _ => []
  | Element e ks => (e, ks) :: flat_map subtrees ks
  end.

(** A text control holds its default value. *)
Definition at_default (x : Elem * list Node) : Prop :=
  forall v, default_value (fst x) (snd x) = Some v -> value (fst x) = v.

(** ** Observations used in the further properties *)

(** An [a] element whose [href] begins with the fragment marker. *)
Definition fragment_link (e : Elem) : bool :=
  (tagName e =? "a")
  && match getAttribute e "href" with
     | Some h => String.prefix "#" h
     | None => false
     end.

Definition is_form (e : Elem) : bool := tagName e =? "form".





(** A string of one-byte white space only: spaces, tabs, line breaks. *)
Fixpoint blank (s : string) : bool :=
  match s with
  | EmptyString => true
  | String c r => Js.ws1 c && blank r
  end.

(** An ASCII character that is not white space. *)
Definition visible (c : ascii) : bool :=
  (Js.code c <? 128)%nat && negb (Js.ws1 c).

(** The world after a listener has run on it. *)
Definition after {A} (m : M A) (w : World) : World := snd (m w).

(** ** Sample pages *)

Module Samples.

Definition el (u : nat) (tag : string) (classes : list string)
  (attributes : list (string * string)) : Elem :=
  mkElem u tag classes attributes "".

Definition input (u : nat) (attributes : list (string * string))
  (current : string) : Node :=
  Element (mkElem u "input" [] attributes current) [].

Definition textarea (u : nat) (current : string) : Node :=
  Element (mkElem u "textarea" [] [] current) [].

Definition section (u : nat) (i : string) (ks : list Node) : Node :=
  Element (el u "section" [] [("id", i)]) ks.

Definition link (u : nat) (href label : string) : Node :=
  Element (el u "a" [] [("href", href)]) [Text label].

Definition button (u : nat) (label : string) : Node :=
  Element (el u "button" [] []) [Text label].

(** The navigation bar: the trigger inside [.md:hidden], and the panel with
    the given classes holding four fragment links. *)
Definition navigation (panel_classes : list string) : Node :=
  Element (el 1 "nav" [] [])
    [Element (el 2 "div" ["md:hidden"] []) [button 3 "Menu"];
     Element (el 4 "div" panel_classes [])
       [link 5 "#services" "Services";
        link 6 "#contact" "Contact";
        link 7 "#" "Top";
        link 8 "#2024" "2024"]].

Definition hero : Node :=
  section 10 "home"
    [button 11 "  Get Started ";
     button 12 "View Work";
     button 13 "Learn More";
     button 14 "get started";
     button 15 "Get a Quote"].

(** The contact form with the current value of each field; the name input
    may carry a [value] attribute. *)
Definition contact_form (name_default : list (string * string))
  (name email subject message : string) : Node :=
  Element (el 51 "form" [] [])
    [input 52 (("placeholder", "Your Name") :: name_default) name;
     input 53 [("placeholder", "Your Email")] email;
     input 54 [("placeholder", "Subject")] subject;
     textarea 55 message].

Definition closed_panel : list string := ["hidden"; "md:flex"; "space-x-8"].

Definition page_with (panel_classes : list string) (form : Node) : Document :=
  [navigation panel_classes;
   hero;
   section 20 "services" [];
   section 30 "portfolio" [];
   section 50 "contact" [form]].

(** The page as the script expects it, the form filled in. *)
Definition page : Document :=
  page_with closed_panel
    (contact_form [] "Ada" "ada@example.com" "Hi" "Hello").

(** The same page with the message left empty. *)
Definition page_message_empty : Document :=
  page_with closed_panel (contact_form [] "Ada" "ada@example.com" "Hi" "").

(** The same page, the name input declared with [value="Guest"] and then
    edited to "Ada". *)
Definition page_prefilled : Document :=
  page_with closed_panel
    (contact_form [("value", "Guest")] "Ada" "ada@example.com" "Hi" "Hello").

(** The same page, the panel carrying [w-full] from the start. *)
Definition page_partly_styled : Document :=
  page_with ["hidden"; "md:flex"; "w-full"]
    (contact_form [] "Ada" "ada@example.com" "Hi" "Hello").

(** A page without the menu trigger: links, buttons and a form only. *)
Definition page_without_trigger : Document :=
  [link 5 "#services" "Services";
   hero;
   section 20 "services" [];
   section 50 "contact"
     [contact_form [] "Ada" "ada@example.com" "Hi" "Hello"]].

(** A page with the trigger and no panel. *)
Definition page_without_panel : Document :=
  [Element (el 1 "nav" [] [])
     [Element (el 2 "div" ["md:hidden"] []) [button 3 "Menu"]]].

(** The page once its portfolio and contact sections have been removed, and
    the page once a section with id [pricing] has been added. *)
Definition page_sections_removed : Document :=
  [navigation closed_panel; hero; section 20 "services" []].

Definition page_section_added : Document :=
  page ++ [section 60 "pricing" []].

(** A host whose selector engine finds nothing for the selector text the
    model leaves to it. *)
Definition host : string -> Document -> Result (option Elem) :=
  fun _ _ => Ok None.

End Samples.

(** * Properties *)

(** ** Induction on document trees *)

Section NodeInduction.

Variable P : Node -> Prop.
Hypothesis P_text : forall s, P (Text s).
Hypothesis P_element : forall e ks, Forall P ks -> P (Element e ks).

Fixpoint Node_tree_ind (n : Node) : P n :=
  match n with
  | Text s => P_text s
  | Element e ks =>
      P_element e ks
        ((fix all (l : list Node) : Forall P l :=
            match l with
            | [] => Forall_nil P
            | k :: l' => Forall_cons k (Node_tree_ind k) (all l')
            end) ks)
  end.

End NodeInduction.

(** ** Worlds and computations *)

Lemma emit_emit (a b : list Effect) (w : World) :
  emit b (emit a w) = emit (a ++ b) w.
Proof. unfold emit; simpl. now rewrite app_assoc. Qed.

Lemma add_listeners_nil (w : World) : add_listeners [] w = w.
Proof. destruct w; unfold add_listeners; simpl. now rewrite app_nil_r. Qed.

Lemma add_listeners_app (a b : list Listener) (w : World) :
  add_listeners b (add_listeners a w) = add_listeners (a ++ b) w.
Proof. unfold add_listeners; simpl. now rewrite app_assoc. Qed.

Lemma set_dom_same (w : World) : set_dom (dom w) w = w.
Proof. now destruct w. Qed.

(** ** Class tokens *)

Module TokenFacts.
Import DOMTokenList.

Lemma contains_app t a b : contains t (a ++ b) = contains t a || contains t b.
Proof. unfold contains. apply existsb_app. Qed.

Lemma contains_remove_same t cl : contains t (remove t cl) = false.
Proof.
  unfold contains, remove. induction cl as [|x cl IH]; simpl; auto.
  destruct (t =? x) eqn:E; simpl; auto. now rewrite E.
Qed.

Lemma contains_remove_other t u cl :
  t <> u -> contains u (remove t cl) = contains u cl.
Proof.
  intros Hne. unfold contains, remove.
  induction cl as [|x cl IH]; simpl; auto.
  destruct (t =? x) eqn:E; simpl.
  - apply String.eqb_eq in E. subst x.
    destruct (u =? t) eqn:E'; auto.
    apply String.eqb_eq in E'. congruence.
  - now rewrite IH.
Qed.

Lemma contains_toggle_same t cl :
  contains t (toggle t cl) = negb (contains t cl).
Proof.
  unfold toggle. destruct (contains t cl) eqn:E; simpl.
  - apply contains_remove_same.
  - rewrite contains_app, E. simpl. unfold contains. simpl.
    now rewrite String.eqb_refl.
Qed.

Lemma contains_toggle_other t u cl :
  t <> u -> contains u (toggle t cl) = contains u cl.
Proof.
  intros Hne. unfold toggle. destruct (contains t cl).
  - now apply contains_remove_other.
  - rewrite contains_app. unfold contains at 2. simpl.
    destruct (u =? t) eqn:E.
    + apply String.eqb_eq in E. congruence.
    + now rewrite !orb_false_r.
Qed.

Lemma contains_toggle_all tokens : forall cl u,
  NoDup tokens ->
  contains u (toggle_all tokens cl)
  = if mem u tokens then negb (contains u cl) else contains u cl.
Proof.
  induction tokens as [|t tokens IH]; intros cl u Hnd; simpl; auto.
  inversion Hnd as [|? ? Hnotin Hnd']; subst.
  unfold toggle_all in *. simpl. rewrite IH by assumption.
  destruct (u =? t) eqn:E; simpl.
  - apply String.eqb_eq in E. subst u.
    assert (Hm : mem t tokens = false).
    { unfold mem. destruct (existsb (String.eqb t) tokens) eqn:Ex; auto.
      apply existsb_exists in Ex. destruct Ex as [x [Hin Hx]].
      apply String.eqb_eq in Hx. subst x. contradiction. }
    rewrite Hm. apply contains_toggle_same.
  - assert (Hne : t <> u).
    { intros ->. now rewrite String.eqb_refl in E. }
    rewrite (contains_toggle_other t u cl Hne). reflexivity.
Qed.

Lemma menu_tokens_NoDup : NoDup menu_tokens.
Proof.
  unfold menu_tokens.
  repeat (constructor; [simpl; intuition discriminate|]). constructor.
Qed.

End TokenFacts.

(** ** Looking an element up after a mutation *)

Lemma first_some_map {A B C} (f : B -> option C) (g : A -> B) (l : list A) :
  first_some f (map g l) = first_some (fun x => f (g x)) l.
Proof.
  induction l as [|x l IH]; simpl; auto.
  destruct (f (g x)); auto.
Qed.

Lemma first_some_ext_in {A B} (f g : A -> option B) (l : list A) :
  Forall (fun x => f x = g x) l -> first_some f l = first_some g l.
Proof.
  induction 1 as [|x l Hx _ IH]; simpl; auto.
  rewrite Hx. destruct (g x); auto.
Qed.

Lemma first_some_option_map {A B C} (f : A -> option B) (h : B -> C)
  (l : list A) :
  first_some (fun x => option_map h (f x)) l = option_map h (first_some f l).
Proof.
  induction l as [|x l IH]; simpl; auto.
  destruct (f x); simpl; auto.
Qed.

Lemma find_node_uid u n e ks : find_node u n = Some (e, ks) -> uid e = u.
Proof.
  revert e ks. induction n as [s|e0 ks0 IH] using Node_tree_ind;
    intros e ks; simpl; [discriminate|].
  destruct (uid e0 =? u)%nat eqn:E.
  - intros [= <- <-]. now apply Nat.eqb_eq.
  - clear E. induction IH as [|k l Hk _ IHl]; simpl; [discriminate|].
    destruct (find_node u k) as [[e1 ks1]|] eqn:Ek.
    + intros [= <- <-]. eapply Hk; eauto.
    + apply IHl.
Qed.

Lemma find_elem_uid u d e ks : find_elem u d = Some (e, ks) -> uid e = u.
Proof.
  unfold find_elem. induction d as [|k d IH]; simpl; [discriminate|].
  destruct (find_node u k) as [[e1 ks1]|] eqn:Ek.
  - intros [= <- <-]. eapply find_node_uid; eauto.
  - apply IH.
Qed.

Section Update.

Variables (m : nat) (f : Elem -> Elem).
Hypothesis f_uid : forall e, uid (f e) = uid e.

Lemma find_node_update u n :
  find_node u (update_node m f n) = option_map (updated m f) (find_node u n).
Proof.
  induction n as [s|e ks IH] using Node_tree_ind; simpl; auto.
  assert (Hu : uid (if (uid e =? m)%nat then f e else e) = uid e).
  { destruct (uid e =? m)%nat; auto. }
  rewrite Hu. destruct (uid e =? u)%nat; simpl; auto.
  rewrite first_some_map.
  rewrite (first_some_ext_in _ (fun x => option_map (updated m f) (find_node u x)))
    by exact IH.
  apply first_some_option_map.
Qed.

Lemma find_elem_update u d :
  find_elem u (update_elem m f d) = option_map (updated m f) (find_elem u d).
Proof.
  unfold find_elem, update_elem. rewrite first_some_map.
  rewrite (first_some_ext_in _ (fun x => option_map (updated m f) (find_node u x))).
  - apply first_some_option_map.
  - apply Forall_forall. intros x _. apply find_node_update.
Qed.

End Update.

Lemma classes_at_update m g u d :
  classes_at u (update_elem m (retoken g) d)
  = option_map (fun cl => if (u =? m)%nat then g cl else cl) (classes_at u d).
Proof.
  unfold classes_at. rewrite find_elem_update by reflexivity.
  destruct (find_elem u d) as [[e ks]|] eqn:E; simpl; auto.
  apply find_elem_uid in E. rewrite E.
  destruct (u =? m)%nat; reflexivity.
Qed.

Lemma menu_click_present m w :
  menu_click (Some m) w = (Ok tt, set_dom (toggled m (dom w)) w).
Proof. reflexivity. Qed.

Lemma menu_click_null w :
  menu_click None w = (Throw (TypeError "classList"), w).
Proof. reflexivity. Qed.

Lemma classes_at_fold m u tokens : forall d,
  classes_at u
    (fold_left
       (fun acc t => update_elem m (retoken (DOMTokenList.toggle t)) acc)
       tokens d)
  = option_map
      (fun cl => if (u =? m)%nat then DOMTokenList.toggle_all tokens cl else cl)
      (classes_at u d).
Proof.
  induction tokens as [|t tokens IH]; intros d; simpl.
  - destruct (classes_at u d); simpl; auto. now destruct (u =? m)%nat.
  - rewrite IH, classes_at_update.
    destruct (classes_at u d); simpl; auto.
    now destruct (u =? m)%nat.
Qed.

Lemma classes_at_toggled m u d :
  classes_at u (toggled m d)
  = option_map
      (fun cl => if (u =? m)%nat
                 then DOMTokenList.toggle_all menu_tokens cl else cl)
      (classes_at u d).
Proof. apply classes_at_fold. Qed.

Lemma contains_toggle_all_twice tokens token cl :
  NoDup tokens ->
  DOMTokenList.contains token
    (DOMTokenList.toggle_all tokens (DOMTokenList.toggle_all tokens cl))
  = DOMTokenList.contains token cl.
Proof.
  intros Hnd. rewrite !TokenFacts.contains_toggle_all by assumption.
  destruct (DOMTokenList.mem token tokens); auto. apply negb_involutive.
Qed.

(** ** MenuToggle *)

(** C7. Two clicks in succession on the menu trigger both complete, and
    leave the membership of every class token, on the panel and on every
    other element, as it was before the first click; this holds for every
    state of the panel. *)
Theorem menu_click_twice_restores (w : World) (m : nat) :
  exists w1 w2,
    menu_click (Some m) w = (Ok tt, w1)
    /\ menu_click (Some m) w1 = (Ok tt, w2)
    /\ (forall token u, has_class token u (dom w2) = has_class token u (dom w))
    /\ listeners w2 = listeners w
    /\ effects w2 = effects w.
Proof.
  exists (set_dom (toggled m (dom w)) w).
  exists (set_dom (toggled m (toggled m (dom w))) w).
  split; [apply menu_click_present|].
  split; [rewrite menu_click_present; now destruct w|].
  split; [|split; reflexivity].
  intros token u. unfold has_class. cbn [dom set_dom].
  rewrite !classes_at_toggled.
  destruct (classes_at u (dom w)) as [cl|]; cbn [option_map]; auto.
  destruct (u =? m)%nat; auto.
  apply contains_toggle_all_twice, TokenFacts.menu_tokens_NoDup.
Qed.

Lemma presentation_toggle_all cl :
  presentation cl <> PanelMixed ->
  presentation (DOMTokenList.toggle_all menu_tokens cl) = flip (presentation cl).
Proof.
  unfold presentation, overlay_tokens. cbn [menu_tokens tl forallb].
  rewrite !TokenFacts.contains_toggle_all by apply TokenFacts.menu_tokens_NoDup.
  cbv [DOMTokenList.mem menu_tokens existsb String.eqb Ascii.eqb Bool.eqb orb].
  repeat match goal with
         | |- context [DOMTokenList.contains ?t cl] =>
             destruct (DOMTokenList.contains t cl); cbn [negb andb flip];
             try congruence
         end.
Qed.

Lemma panel_presentation_click m w p :
  panel_presentation m (dom w) = Some p ->
  p <> PanelMixed ->
  panel_presentation m (dom (snd (menu_click (Some m) w))) = Some (flip p).
Proof.
  unfold panel_presentation. rewrite menu_click_present. cbn [snd dom set_dom].
  rewrite classes_at_toggled.
  destruct (classes_at m (dom w)) as [cl|]; cbn [option_map]; [|discriminate].
  intros [= <-] Hp. rewrite Nat.eqb_refl.
  now rewrite presentation_toggle_all.
Qed.

Lemma flip_not_mixed p : p <> PanelMixed -> flip p <> PanelMixed.
Proof. destruct p; simpl; congruence. Qed.

Lemma flip_flip p : flip (flip p) = p.
Proof. now destruct p. Qed.

(** C8, as the code has it.  When the panel's attribute group is fully
    closed or fully open to begin with, it is fully closed or fully open
    after every sequence of clicks: it is in the starting configuration
    after an even number of clicks and in the opposite one after an odd
    number, never mixed. *)
Theorem menu_group_lockstep (n : nat) : forall (w : World) (m : nat) (p : Presentation),
  panel_presentation m (dom w) = Some p ->
  p <> PanelMixed ->
  panel_presentation m (dom (menu_clicks n (Some m) w))
  = Some (if Nat.even n then p else flip p)
  /\ panel_presentation m (dom (menu_clicks n (Some m) w)) <> Some PanelMixed.
Proof.
  induction n as [n IH] using (well_founded_induction lt_wf).
  intros w m p Hp Hmix.
  destruct n as [|[|n]].
  - simpl. split; [assumption|congruence].
  - cbn [menu_clicks Nat.even].
    pose proof (panel_presentation_click m w p Hp Hmix) as H1.
    split; [assumption|]. rewrite H1.
    intros [= E]. now apply (flip_not_mixed p).
  - cbn [menu_clicks]. 
    pose proof (panel_presentation_click m w p Hp Hmix) as H1.
    pose proof (panel_presentation_click m _ (flip p) H1 (flip_not_mixed p Hmix))
      as H2.
    rewrite flip_flip in H2.
    destruct (IH n ltac:(lia) _ m p H2 Hmix) as [E1 E2].
    split; assumption.
Qed.

(** ** The setup routines *)

Lemma bind_ok {A B} (m : M A) (k : A -> M B) w a w' :
  m w = (Ok a, w') -> bind m k w = k a w'.
Proof. unfold bind. now intros ->. Qed.


Lemma forEach_registers {A} (body : A -> M unit) (reg : A -> list Listener)
  (l : list A) :
  (forall x w, body x w = (Ok tt, add_listeners (reg x) w)) ->
  forall w, forEach l body w = (Ok tt, add_listeners (flat_map reg l) w).
Proof.
  intros Hbody. induction l as [|x l IH]; intros w; simpl.
  - unfold ret. now rewrite add_listeners_nil.
  - erewrite bind_ok by apply Hbody.
    rewrite IH. now rewrite add_listeners_app.
Qed.

Lemma flat_map_singleton {A B} (f : A -> B) (l : list A) :
  flat_map (fun x => [f x]) l = map f l.
Proof. induction l as [|x l IH]; simpl; congruence. Qed.

Lemma setupMobileMenu_absent w :
  select_first sel_mobileMenuButton (dom w) = None ->
  setupMobileMenu w = (Throw (TypeError "addEventListener"), w).
Proof.
  intros H. unfold setupMobileMenu, bind, document_querySelector.
  now rewrite H.
Qed.

Lemma setupMobileMenu_present w b :
  select_first sel_mobileMenuButton (dom w) = Some b ->
  setupMobileMenu w = (Ok tt, add_listeners [menu_listener b (dom w)] w).
Proof.
  intros H. unfold setupMobileMenu, bind, document_querySelector.
  rewrite H. now destruct b.
Qed.

Lemma setupSmoothScrolling_spec w :
  setupSmoothScrolling w = (Ok tt, add_listeners (link_listeners (dom w)) w).
Proof.
  unfold setupSmoothScrolling, bind, document_querySelectorAll.
  rewrite (forEach_registers _ (fun l => [link_listener l])).
  - unfold link_listeners. now rewrite flat_map_singleton.
  - intros [e ks] w'. reflexivity.
Qed.

Lemma setupContactForm_spec w :
  setupContactForm w = (Ok tt, add_listeners (form_listeners (dom w)) w).
Proof.
  unfold setupContactForm, bind, document_querySelector, form_listeners.
  destruct (select_first sel_form (dom w)) as [[e ks]|]; simpl.
  - reflexivity.
  - unfold ret. now rewrite add_listeners_nil.
Qed.




(** C1, as the code has it.  The setup assumes that both elements are
    there.  When the trigger control is absent it registers no listener
    and throws; when the trigger is present it registers exactly one click
    listener and completes, also when the panel is absent, and the
    listener registered without a panel throws at every click and changes
    nothing. *)
Theorem setupMobileMenu_assumes_presence (w : World) :
  (select_first sel_mobileMenuButton (dom w) = None ->
   setupMobileMenu w = (Throw (TypeError "addEventListener"), w))
  /\ (forall b,
        select_first sel_mobileMenuButton (dom w) = Some b ->
        setupMobileMenu w
        = (Ok tt, add_listeners [menu_listener b (dom w)] w))
  /\ (forall b,
        select_first sel_mobileMenu (dom w) = None ->
        callback (menu_listener b (dom w)) = MenuClickHandler None
        /\ forall w', menu_click None w' = (Throw (TypeError "classList"), w')).
Proof.
  split; [apply setupMobileMenu_absent|].
  split; [intros b; apply setupMobileMenu_present|].
  intros b H. unfold menu_listener. rewrite H. split; reflexivity.
Qed.


(** ** ButtonRouter *)










(** ** SmoothScroller *)

Section LinkClicks.

Variable other_selectors : string -> Document -> Result (option Elem).

Lemma link_click_spec link w :
  link_click other_selectors link w
  = match href_now link w with
    | Some sel =>
        if negb (sel =? "") && negb (sel =? "#") then
          match resolve_text other_selectors sel (dom w) with
          | Ok (Some s) =>
              (Ok tt,
               emit [PreventDefault; ScrollIntoView (uid s) smooth_start] w)
          | Ok None => (Ok tt, emit [PreventDefault] w)
          | Throw e => (Throw e, emit [PreventDefault] w)
          end
        else (Ok tt, emit [PreventDefault] w)
    | None => (Ok tt, emit [PreventDefault] w)
    end.
Proof.
  unfold link_click, href_now, bind, preventDefault, perform,
    Element_getAttribute, document_querySelector_text, scrollIntoView.
  cbn [fst]. change (dom (emit [PreventDefault] w)) with (dom w).
  destruct (find_elem link (dom w)) as [[e ks]|]; [|reflexivity].
  destruct (getAttribute e "href") as [sel|]; [|reflexivity].
  destruct (negb (sel =? "") && negb (sel =? "#")); [|reflexivity].
  cbn beta. change (dom (emit [PreventDefault] w)) with (dom w).
  destruct (resolve_text other_selectors sel (dom w)) as [[s|]|err];
    try reflexivity.
  unfold perform. now rewrite emit_emit.
Qed.




(** The part of the negative path that holds: no target, the empty
    fragment, the bare marker, or a lookup that finds nothing. *)
Lemma link_click_no_target (w : World) (link : nat) :
  (href_now link w = None
   \/ href_now link w = Some ""
   \/ href_now link w = Some "#"
   \/ exists href, href_now link w = Some href
                   /\ resolve_text other_selectors href (dom w) = Ok None) ->
  link_click other_selectors link w = (Ok tt, emit [PreventDefault] w).
Proof.
  rewrite link_click_spec.
  intros [H | [H | [H | [href [H Hres]]]]]; rewrite H; try reflexivity.
  rewrite Hres. now destruct (negb (href =? "") && negb (href =? "#")).
Qed.

End LinkClicks.

(** ** Lookup by id *)

Lemma select_node_elements c n :
  map fst (select_node [] c n) = filter (matches_compound c) (elements_of n).
Proof.
  induction n as [s|e ks IH] using Node_tree_ind; simpl; auto.
  assert (Hks : map fst (flat_map (select_node [] c) ks)
                = filter (matches_compound c) (flat_map elements_of ks)).
  { induction IH as [|k l Hk _ IHl]; simpl; auto.
    now rewrite map_app, filter_app, Hk, IHl. }
  destruct (matches_compound c e); simpl; now rewrite Hks.
Qed.

Lemma select_all_elements c d :
  map fst (select_all (mkSelector [] c) d)
  = filter (matches_compound c) (elements d).
Proof.
  unfold select_all, elements. cbn [context subject].
  induction d as [|k d IH]; simpl; auto.
  now rewrite map_app, filter_app, select_node_elements, IH.
Qed.

Lemma hd_error_filter {A} (p : A -> bool) (l : list A) :
  hd_error (filter p l) = find p l.
Proof.
  induction l as [|x l IH]; simpl; auto. now destruct (p x).
Qed.

Lemma hd_error_map {A B} (f : A -> B) (l : list A) :
  hd_error (map f l) = option_map f (hd_error l).
Proof. now destruct l. Qed.

Lemma select_first_by_id i d :
  option_map fst (select_first (mkSelector [] [SId i]) d) = first_with_id i d.
Proof.
  unfold select_first, first_with_id, has_id.
  now rewrite <- hd_error_map, select_all_elements, hd_error_filter.
Qed.

Lemma code_35 c : (Css.code c =? 35)%nat = true -> c = "#"%char.
Proof.
  intros H. apply Nat.eqb_eq in H. unfold Css.code in H.
  rewrite <- (ascii_nat_embedding c), H. reflexivity.
Qed.

Lemma parse_id_selector href i :
  Css.parse href = Css.IdSelector i ->
  href = String "#" i /\ i <> "".
Proof.
  unfold Css.parse. destruct href as [|c r]; [discriminate|].
  destruct (Css.code c =? 35)%nat eqn:E; [|discriminate].
  apply code_35 in E. subst c.
  destruct r as [|c' r']; [discriminate|].
  destruct (Css.all_name (String c' r') && negb (Css.double_hyphen (String c' r')));
    [|discriminate].
  destruct (Css.starts_ident (String c' r')); [|discriminate].
  intros [= <-]. split; [reflexivity|discriminate].
Qed.

Lemma added_effects_emit es w : added_effects w (emit es w) = es.
Proof.
  unfold added_effects, emit. cbn [effects].
  induction (effects w) as [|x l IH]; simpl; auto.
Qed.




Section ClickTime.

Variable other_selectors : string -> Document -> Result (option Elem).





End ClickTime.

(** ** ContactFormHandler *)

Lemma truthy_false_missing v : Js.truthy v = false <-> missing v.
Proof.
  unfold missing, Js.truthy. destruct v as [s|].
  - destruct (s =? "") eqn:E; simpl.
    + apply String.eqb_eq in E. subst s. tauto.
    + apply String.eqb_neq in E. split; [discriminate|].
      intros [H|H]; [discriminate|]. congruence.
  - tauto.
Qed.

Lemma truthy_true_filled v :
  Js.truthy v = true <-> exists s, v = Some s /\ s <> "".
Proof.
  unfold Js.truthy. destruct v as [s|].
  - destruct (s =? "") eqn:E; simpl.
    + apply String.eqb_eq in E. subst s. split; [discriminate|].
      intros [s [[= <-] H]]. congruence.
    + apply String.eqb_neq in E. split; [eauto|reflexivity].
  - split; [discriminate|]. intros [s [H _]]. discriminate.
Qed.

Lemma form_submit_spec form w :
  form_submit form w
  = if Js.truthy (field_value form sel_nameInput w)
       && Js.truthy (field_value form sel_emailInput w)
       && Js.truthy (field_value form sel_subjectInput w)
       && Js.truthy (field_value form sel_messageInput w)
    then
      (Ok tt,
       set_dom (map (reset_below form) (dom w))
         (emit [PreventDefault;
                Alert (success_message (field_value form sel_nameInput w)
                         (field_value form sel_emailInput w))] w))
    else (Ok tt, emit [PreventDefault; Alert failure_message] w).
Proof.
  unfold form_submit, field_value, bind, preventDefault, alert, perform,
    Element_querySelector, form_reset.
  cbn [fst]. change (dom (emit [PreventDefault] w)) with (dom w).
  destruct (find_elem form (dom w)) as [[e ks]|]; cbn [option_map].
  - match goal with
    | |- context [if ?c then _ else _] => destruct c
    end; rewrite emit_emit; reflexivity.
  - cbn [Js.truthy andb]. now rewrite emit_emit.
Qed.

(** C3. When at least one of the four field values is missing at the
    submission (its element is absent, so that the value is undefined, or
    the value is the empty string), the listener suppresses the default
    submission, shows exactly one alert, with the text "Please fill in all
    fields before submitting.", completes, and leaves the document, and so
    every field value, as it was. *)
Theorem form_submit_missing_field (w : World) (form : nat) :
  missing (field_value form sel_nameInput w)
  \/ missing (field_value form sel_emailInput w)
  \/ missing (field_value form sel_subjectInput w)
  \/ missing (field_value form sel_messageInput w) ->
  form_submit form w
  = (Ok tt,
     emit [PreventDefault;
           Alert "Please fill in all fields before submitting."] w)
  /\ alerts (added_effects w (snd (form_submit form w)))
     = ["Please fill in all fields before submitting."]
  /\ dom (snd (form_submit form w)) = dom w.
Proof.
  intros H.
  assert (E : form_submit form w
              = (Ok tt, emit [PreventDefault; Alert failure_message] w)).
  { rewrite form_submit_spec.
    repeat rewrite <- truthy_false_missing in H.
    destruct H as [H|[H|[H|H]]]; rewrite H;
      now rewrite ?andb_false_r, ?andb_false_l. }
  split; [exact E|]. rewrite E. cbn [snd].
  split; [now rewrite added_effects_emit|reflexivity].
Qed.


(** What [form.reset()] leaves behind. *)

Lemma textContent_reset n : textContent (reset_node n) = textContent n.
Proof.
  induction n as [s|e ks IH] using Node_tree_ind; simpl; auto.
  rewrite map_map. f_equal. now apply map_ext_Forall.
Qed.

Lemma textContent_of_reset ks :
  textContent_of (map reset_node ks) = textContent_of ks.
Proof.
  unfold textContent_of. rewrite map_map. f_equal.
  apply map_ext. intros n. apply textContent_reset.
Qed.

Lemma default_value_reset e ks :
  default_value (reset_control e ks) (map reset_node ks) = default_value e ks.
Proof.
  unfold reset_control, default_value at 1 3.
  rewrite textContent_of_reset.
  now destruct (default_value e ks).
Qed.

Lemma reset_control_at_default e ks :
  at_default (reset_control e ks, map reset_node ks).
Proof.
  unfold at_default. cbn [fst snd]. intros v.
  rewrite default_value_reset. unfold reset_control.
  now intros ->.
Qed.

Lemma subtrees_reset n : Forall at_default (subtrees (reset_node n)).
Proof.
  induction n as [s|e ks IH] using Node_tree_ind; simpl; [constructor|].
  constructor; [apply reset_control_at_default|].
  induction IH as [|k l Hk _ IHl]; simpl; [constructor|].
  apply Forall_app. split; assumption.
Qed.

Lemma find_node_reset_below form n :
  find_node form (reset_below form n)
  = option_map (fun x => (fst x, map reset_node (snd x))) (find_node form n).
Proof.
  induction n as [s|e ks IH] using Node_tree_ind; simpl; auto.
  destruct (uid e =? form)%nat eqn:E; simpl; rewrite E; [reflexivity|].
  rewrite first_some_map.
  rewrite (first_some_ext_in _
             (fun x => option_map (fun x => (fst x, map reset_node (snd x)))
                         (find_node form x))) by exact IH.
  apply first_some_option_map.
Qed.

(** After [form.reset()] the form is still there and every text control
    below it holds its default value. *)
Lemma form_reset_restores_defaults form d e ks :
  find_elem form d = Some (e, ks) ->
  find_elem form (map (reset_below form) d) = Some (e, map reset_node ks)
  /\ Forall at_default (flat_map subtrees (map reset_node ks)).
Proof.
  intros H. split.
  - unfold find_elem in *. rewrite first_some_map.
    rewrite (first_some_ext_in _
               (fun x => option_map (fun x => (fst x, map reset_node (snd x)))
                           (find_node form x))).
    + rewrite first_some_option_map, H. reflexivity.
    + apply Forall_forall. intros x _. apply find_node_reset_below.
  - clear H. induction ks as [|k ks IH]; simpl; [constructor|].
    apply Forall_app. split; [apply subtrees_reset|exact IH].
Qed.

(** ** The pages at work *)

Module Instances.
Import Samples.

(** The loaded page: one listener per routine target, in setup order. *)
Example page_listeners :
  map (fun l => (target l, callback l)) (listeners (page_load host page))
  = [(TheDocument, ReadyHandler);
     (TheElement 3, MenuClickHandler (Some 4));
     (TheElement 5, LinkClickHandler 5);
     (TheElement 6, LinkClickHandler 6);
     (TheElement 7, LinkClickHandler 7);
     (TheElement 8, LinkClickHandler 8);
     (TheElement 51, FormSubmitHandler 51);
     (TheElement 11, ContactButtonHandler);
     (TheElement 12, PortfolioButtonHandler);
     (TheElement 15, ContactButtonHandler)].
Proof. reflexivity. Qed.

(** Two clicks on the trigger: the panel has the classes it started with,
    [hidden] now last in the list. *)
Example menu_round_trip_on_page :
  classes_at 4 (dom (page_load host page))
  = Some ["hidden"; "md:flex"; "space-x-8"]
  /\ classes_at 4 (dom (click host 3 (click host 3 (page_load host page))))
     = Some ["md:flex"; "space-x-8"; "hidden"].
Proof. split; reflexivity. Qed.

(** The routed buttons and the fragment links ask for the same motion and
    the same alignment. *)
Example routed_scroll_same_profile :
  behavior smooth_only = behavior smooth_start
  /\ effective_block smooth_only = effective_block smooth_start.
Proof. split; reflexivity. Qed.

(** C2. On a page whose name input is declared with [value="Guest"] and
    whose four fields are filled in, the submission suppresses the default,
    shows exactly one alert with the submitted name and email in the
    template, and then resets the form: the name field goes back to
    "Guest", not to the empty string, while the three fields without a
    declared default become empty. *)
Theorem form_submit_success_resets_to_defaults :
  field_value 51 sel_nameInput (page_load host page_prefilled) = Some "Ada"
  /\ field_value 51 sel_emailInput (page_load host page_prefilled)
     = Some "ada@example.com"
  /\ field_value 51 sel_subjectInput (page_load host page_prefilled) = Some "Hi"
  /\ field_value 51 sel_messageInput (page_load host page_prefilled)
     = Some "Hello"
  /\ added_effects (page_load host page_prefilled)
       (submit host 51 (page_load host page_prefilled))
     = [PreventDefault;
        Alert "Thank you Ada! Your message has been received. We'll get back to you at ada@example.com soon!"]
  /\ field_value 51 sel_nameInput
       (submit host 51 (page_load host page_prefilled)) = Some "Guest"
  /\ field_value 51 sel_emailInput
       (submit host 51 (page_load host page_prefilled)) = Some ""
  /\ field_value 51 sel_subjectInput
       (submit host 51 (page_load host page_prefilled)) = Some ""
  /\ field_value 51 sel_messageInput
       (submit host 51 (page_load host page_prefilled)) = Some "".
Proof. repeat split; vm_compute; reflexivity. Qed.

(** C5. A click on the link whose [href] is [#2024], on a page with no
    element of that id, suppresses the default navigation and then faults:
    the lookup throws a syntax error, for every host, and the click ends
    with an uncaught error and no scroll. *)
Theorem link_click_invalid_fragment_faults
  (other_selectors : string -> Document -> Result (option Elem)) :
  href_now 8 (page_load other_selectors page) = Some "#2024"
  /\ first_with_id "2024" page = None
  /\ link_click other_selectors 8 (page_load other_selectors page)
     = (Throw (SyntaxError "#2024"),
        emit [PreventDefault] (page_load other_selectors page))
  /\ added_effects (page_load other_selectors page)
       (click other_selectors 8 (page_load other_selectors page))
     = [PreventDefault; Uncaught (SyntaxError "#2024")].
Proof. repeat split; vm_compute; reflexivity. Qed.

(** C1, refuted as stated: on a page without the trigger the setup throws,
    and on a page with the trigger and without the panel it registers a
    click listener. *)
Lemma setupMobileMenu_absence_not_silent :
  (select_first sel_mobileMenuButton page_without_trigger = None
   /\ setupMobileMenu (fresh page_without_trigger)
      = (Throw (TypeError "addEventListener"), fresh page_without_trigger))
  /\ (select_first sel_mobileMenu page_without_panel = None
      /\ listeners (snd (setupMobileMenu (fresh page_without_panel)))
         = [mkListener (TheElement 3) "click" (MenuClickHandler None)]).
Proof. repeat split; vm_compute; reflexivity. Qed.

Lemma setupMobileMenu_assumes_presence_witness :
  setupMobileMenu (fresh page_without_trigger)
  = (Throw (TypeError "addEventListener"), fresh page_without_trigger)
  /\ setupMobileMenu (fresh page)
     = (Ok tt,
        add_listeners
          [mkListener (TheElement 3) "click" (MenuClickHandler (Some 4))]
          (fresh page))
  /\ menu_click None (fresh page_without_panel)
     = (Throw (TypeError "classList"), fresh page_without_panel).
Proof.
  split; [|split].
  - apply (proj1 (setupMobileMenu_assumes_presence (fresh page_without_trigger))).
    reflexivity.
  - apply (proj1 (proj2 (setupMobileMenu_assumes_presence (fresh page)))
             (el 3 "button" [] [], [Text "Menu"])).
    reflexivity.
  - apply (proj2 (proj2 (setupMobileMenu_assumes_presence
                           (fresh page_without_panel)))
             (el 3 "button" [] [], [Text "Menu"])).
    reflexivity.
Defined.

(** C8, refuted as stated: the panel of this page is the one the setup
    captures, and after one click on the trigger it has [hidden] removed
    and [w-full] removed with the other eight overlay tokens applied. *)
Lemma menu_group_mixed_after_click :
  option_map uid_of (select_first sel_mobileMenu page_partly_styled) = Some 4
  /\ listeners_on 3 (listeners (page_load host page_partly_styled))
     = [mkListener (TheElement 3) "click" (MenuClickHandler (Some 4))]
  /\ panel_presentation 4
       (dom (click host 3 (page_load host page_partly_styled)))
     = Some PanelMixed
  /\ has_class "hidden" 4
       (dom (click host 3 (page_load host page_partly_styled))) = false
  /\ has_class "w-full" 4
       (dom (click host 3 (page_load host page_partly_styled))) = false
  /\ has_class "flex" 4
       (dom (click host 3 (page_load host page_partly_styled))) = true.
Proof. repeat split; vm_compute; reflexivity. Qed.

Lemma menu_group_lockstep_witness :
  panel_presentation 4 (dom (fresh page)) = Some PanelClosed
  /\ panel_presentation 4 (dom (menu_clicks 3 (Some 4) (fresh page)))
     = Some PanelOpen
  /\ panel_presentation 4 (dom (menu_clicks 3 (Some 4) (fresh page)))
     <> Some PanelMixed.
Proof.
  split; [reflexivity|].
  apply (menu_group_lockstep 3 (fresh page) 4 PanelClosed).
  - reflexivity.
  - discriminate.
Defined.



Lemma form_submit_missing_field_witness :
  missing (field_value 51 sel_messageInput (page_load host page_message_empty))
  /\ form_submit 51 (page_load host page_message_empty)
     = (Ok tt,
        emit [PreventDefault;
              Alert "Please fill in all fields before submitting."]
          (page_load host page_message_empty))
  /\ alerts (added_effects (page_load host page_message_empty)
               (snd (form_submit 51 (page_load host page_message_empty))))
     = ["Please fill in all fields before submitting."]
  /\ dom (snd (form_submit 51 (page_load host page_message_empty)))
     = dom (page_load host page_message_empty).
Proof.
  assert (H : missing (field_value 51 sel_messageInput
                         (page_load host page_message_empty))).
  { right. reflexivity. }
  split; [exact H|].
  apply (form_submit_missing_field (page_load host page_message_empty) 51).
  right. right. right. exact H.
Defined.




End Instances.

(** * Further properties of the script *)

(** ** The three scans *)

Lemma select_first_elements c d :
  option_map fst (select_first (mkSelector [] c) d)
  = find (matches_compound c) (elements d).
Proof.
  unfold select_first.
  now rewrite <- hd_error_map, select_all_elements, hd_error_filter.
Qed.

Lemma filter_ext_all {A} (p q : A -> bool) (l : list A) :
  (forall x, p x = q x) -> filter p l = filter q l.
Proof. intros H. induction l as [|x l IH]; simpl; auto. now rewrite H, IH. Qed.

Lemma find_ext_all {A} (p q : A -> bool) (l : list A) :
  (forall x, p x = q x) -> find p l = find q l.
Proof. intros H. induction l as [|x l IH]; simpl; auto. now rewrite H, IH. Qed.

Lemma fragment_link_selector e :
  matches_compound (subject sel_navLinks) e = fragment_link e.
Proof.
  unfold fragment_link. cbn [sel_navLinks subject matches_compound forallb
                              matches_simple].
  destruct (getAttribute e "href") as [h|]; cbn [negb String.eqb andb];
    now rewrite ?andb_true_r.
Qed.

Lemma is_form_selector e : matches_compound (subject sel_form) e = is_form e.
Proof. unfold is_form. cbn. apply andb_true_r. Qed.


(** X1. [setupSmoothScrolling] never throws and touches neither the
    document nor the effects.  It registers one click listener for each
    [a] element of the document whose [href] begins with the fragment
    marker, in document order, each capturing its own link, and nothing
    for any other element. *)
Theorem setupSmoothScrolling_scan (w : World) :
  setupSmoothScrolling w
  = (Ok tt,
     add_listeners
       (map (fun e => mkListener (TheElement (uid e)) "click"
                        (LinkClickHandler (uid e)))
          (filter fragment_link (elements (dom w))))
       w).
Proof.
  rewrite setupSmoothScrolling_spec. do 2 f_equal.
  unfold link_listeners.
  rewrite <- (filter_ext_all _ _ _ fragment_link_selector).
  change (subject sel_navLinks) with [SType "a"; SAttrPrefix "href" "#"].
  rewrite <- select_all_elements, map_map. reflexivity.
Qed.

(** X2. [setupContactForm] never throws and touches neither the document
    nor the effects.  When the document has a [form] element it registers
    exactly one submit listener, on the first one in document order; any
    further form gets none, and without a form nothing is registered. *)
Theorem setupContactForm_first_form (w : World) :
  setupContactForm w
  = (Ok tt,
     add_listeners
       match find is_form (elements (dom w)) with
       | Some f =>
           [mkListener (TheElement (uid f)) "submit" (FormSubmitHandler (uid f))]
       | None => []
       end
       w).
Proof.
  rewrite setupContactForm_spec. do 2 f_equal.
  unfold form_listeners.
  rewrite <- (find_ext_all _ _ _ is_form_selector).
  change (subject sel_form) with [SType "form"].
  rewrite <- select_first_elements. fold sel_form.
  now destruct (select_first sel_form (dom w)).
Qed.


(** ** The link listener *)

Section LinkListener.

Variable other_selectors : string -> Document -> Result (option Elem).

(** X4. Whatever the link's [href] is at the moment of the click (absent,
    empty, the bare marker, no longer a fragment, not a selector at all),
    the listener first suppresses the default navigation; after that it
    adds at most one effect, a smooth scroll request aligned to the start,
    and never an alert or a log line.  It never changes the document or the
    registered listeners, also when it throws. *)
Theorem link_click_always_suppresses_default (link : nat) (w : World) :
  (effects (after (link_click other_selectors link) w)
   = effects w ++ [PreventDefault]
   \/ exists u,
        effects (after (link_click other_selectors link) w)
        = effects w ++ [PreventDefault; ScrollIntoView u smooth_start])
  /\ dom (after (link_click other_selectors link) w) = dom w
  /\ listeners (after (link_click other_selectors link) w) = listeners w.
Proof.
  unfold after. rewrite link_click_spec.
  destruct (href_now link w) as [href|]; [|cbn; auto].
  destruct (negb (href =? "") && negb (href =? "#")); [|cbn; auto].
  destruct (resolve_text other_selectors href (dom w)) as [[s|]|err];
    cbn; eauto.
Qed.

Lemma no_element_no_first i d :
  (forall e, In e (elements d) -> has_id i e = false) ->
  first_with_id i d = None.
Proof.
  intros H. unfold first_with_id.
  destruct (find (has_id i) (elements d)) as [s|] eqn:F; auto.
  apply find_some in F. destruct F as [Hin Hs].
  now rewrite (H s Hin) in Hs.
Qed.

(** X5. A click on a fragment link that has nothing to scroll to is
    silent: when the [href] is absent, empty or the bare marker, or is a
    hash followed by an identifier that no element of the document carries
    as its id, the listener completes without a fault and its only effect
    is the suppression of the default navigation. *)
Theorem link_click_without_target_is_silent (link : nat) (w : World) :
  href_now link w = None
  \/ href_now link w = Some ""
  \/ href_now link w = Some "#"
  \/ (exists href i,
        href_now link w = Some href
        /\ Css.parse href = Css.IdSelector i
        /\ forall e, In e (elements (dom w)) -> has_id i e = false) ->
  link_click other_selectors link w = (Ok tt, emit [PreventDefault] w)
  /\ invoke other_selectors (LinkClickHandler link) w
     = emit [PreventDefault] w.
Proof.
  intros H.
  assert (E : link_click other_selectors link w
              = (Ok tt, emit [PreventDefault] w)).
  { apply link_click_no_target.
    destruct H as [H|[H|[H|[href [i [H [Hp Hno]]]]]]]; auto.
    right. right. right. exists href. split; [assumption|].
    unfold resolve_text. rewrite Hp, select_first_by_id.
    now rewrite (no_element_no_first i (dom w) Hno). }
  split; [exact E|]. unfold invoke. cbn [run_handler]. now rewrite E.
Qed.

Lemma digit_code c :
  Css.digit c = true -> (48 <= Css.code c /\ Css.code c <= 57)%nat.
Proof.
  unfold Css.digit. intros H. apply andb_true_iff in H.
  destruct H as [H1 H2]. apply Nat.leb_le in H1, H2. auto.
Qed.

Lemma parse_digit_initial c r :
  Css.digit c = true ->
  Css.all_name r = true ->
  Css.parse (String "#" (String c r)) = Css.Invalid.
Proof.
  intros Hd Hr. pose proof (digit_code c Hd) as [Hlo Hhi].
  assert (Hh : Css.hyphen c = false).
  { unfold Css.hyphen. apply Nat.eqb_neq. lia. }
  assert (Hs : Css.name_start c = false).
  { unfold Css.name_start, Css.letter.
    repeat match goal with
           | |- context [(?a <=? ?b)%nat] =>
               destruct (Nat.leb_spec a b); try lia
           | |- context [(?a =? ?b)%nat] =>
               destruct (Nat.eqb_spec a b); try lia
           end; reflexivity. }
  unfold Css.parse. cbn [Css.code nat_of_ascii].
  change (Css.code "#" =? 35)%nat with true. cbn iota.
  cbn [Css.all_name Css.double_hyphen Css.starts_ident].
  unfold Css.name_char. rewrite Hd, Hh, Hs, Hr.
  cbn [orb andb negb].
  destruct r; reflexivity.
Qed.

(** X6. A click on a fragment link whose fragment begins with a digit
    ([#2024], [#3d-view]) suppresses the default navigation and then
    faults: the lookup throws a syntax error, nothing is scrolled, whether
    or not an element with that id exists, and the document is left as it
    was. *)
Theorem link_click_digit_fragment_faults (link : nat) (w : World)
  (c : ascii) (r : string) :
  href_now link w = Some (String "#" (String c r)) ->
  Css.digit c = true ->
  Css.all_name r = true ->
  link_click other_selectors link w
  = (Throw (SyntaxError (String "#" (String c r))), emit [PreventDefault] w)
  /\ invoke other_selectors (LinkClickHandler link) w
     = emit [PreventDefault; Uncaught (SyntaxError (String "#" (String c r)))] w.
Proof.
  intros Hh Hd Hr.
  assert (E : link_click other_selectors link w
              = (Throw (SyntaxError (String "#" (String c r))),
                 emit [PreventDefault] w)).
  { rewrite link_click_spec, Hh. cbn [String.eqb Ascii.eqb Bool.eqb negb andb].
    unfold resolve_text. now rewrite parse_digit_initial. }
  split; [exact E|].
  unfold invoke. cbn [run_handler]. rewrite E. apply emit_emit.
Qed.

End LinkListener.

(** ** The menu listener *)

Lemma menu_clicks_untouched n : forall w m,
  listeners (menu_clicks n (Some m) w) = listeners w
  /\ effects (menu_clicks n (Some m) w) = effects w.
Proof.
  induction n as [|n IH]; intros w m; cbn [menu_clicks]; [auto|].
  rewrite menu_click_present. cbn [snd].
  destruct (IH (set_dom (toggled m (dom w)) w) m) as [-> ->]. auto.
Qed.

(** X7. After [n] clicks on the menu trigger the panel carries each of the
    ten toggled tokens exactly when it did not carry it before, if [n] is
    odd, and exactly when it did, if [n] is even; every other class of the
    panel and the class list of every other element are as before, and no
    effect is produced and no listener added or removed. *)
Theorem menu_clicks_flip_the_ten_tokens (n : nat) : forall (w : World)
  (m : nat) (cl : list string),
  classes_at m (dom w) = Some cl ->
  (exists cl',
      classes_at m (dom (menu_clicks n (Some m) w)) = Some cl'
      /\ forall token,
           DOMTokenList.contains token cl'
           = if Nat.odd n && DOMTokenList.mem token menu_tokens
             then negb (DOMTokenList.contains token cl)
             else DOMTokenList.contains token cl)
  /\ (forall u,
        u <> m ->
        classes_at u (dom (menu_clicks n (Some m) w)) = classes_at u (dom w))
  /\ listeners (menu_clicks n (Some m) w) = listeners w
  /\ effects (menu_clicks n (Some m) w) = effects w.
Proof.
  induction n as [|n IH]; intros w m cl Hcl.
  - cbn [menu_clicks Nat.odd andb]. split; [|auto]. exists cl. auto.
  - split; [|split; [|apply menu_clicks_untouched]].
    + cbn [menu_clicks]. rewrite menu_click_present. cbn [snd].
      destruct (IH (set_dom (toggled m (dom w)) w) m
                  (DOMTokenList.toggle_all menu_tokens cl)) as [[cl' [E F]] _].
      { cbn [dom set_dom]. rewrite classes_at_toggled, Hcl.
        cbn [option_map]. now rewrite Nat.eqb_refl. }
      exists cl'. split; [exact E|].
      intros token. rewrite F.
      rewrite TokenFacts.contains_toggle_all by apply TokenFacts.menu_tokens_NoDup.
      rewrite Nat.odd_succ, <- Nat.negb_odd.
      destruct (Nat.odd n), (DOMTokenList.mem token menu_tokens);
        cbn [negb andb]; auto using negb_involutive.
    + intros u Hu. cbn [menu_clicks]. rewrite menu_click_present. cbn [snd].
      destruct (IH (set_dom (toggled m (dom w)) w) m
                  (DOMTokenList.toggle_all menu_tokens cl)) as [_ [G _]].
      { cbn [dom set_dom]. rewrite classes_at_toggled, Hcl.
        cbn [option_map]. now rewrite Nat.eqb_refl. }
      rewrite (G u Hu). cbn [dom set_dom]. rewrite classes_at_toggled.
      apply Nat.eqb_neq in Hu. rewrite Hu.
      now destruct (classes_at u (dom w)).
Qed.

(** ** The submit listener *)


(** Selection is blind to the value of a control, so [form.reset()] does
    not change which elements a selector finds. *)







Lemma select_node_matches subj n x :
  In x (select_node [] subj n) -> matches_compound subj (fst x) = true.
Proof.
  induction n as [s|e ks IH] using Node_tree_ind; cbn [select_node];
    [intros []|].
  intros H. apply in_app_or in H. destruct H as [H|H].
  - destruct (matches_compound subj e) eqn:E; [|destruct H].
    destruct H as [<-|[]]. exact E.
  - apply in_flat_map in H. destruct H as [k [Hk Hx]].
    rewrite Forall_forall in IH. now apply (IH k Hk).
Qed.













(** ** Trimming of button labels *)

Module TrimFacts.
Import Js.

Ltac split_bools :=
  repeat match goal with
         | |- context [(?a =? ?b)%nat] =>
             destruct (Nat.eqb_spec a b); cbn [andb orb negb]; try lia
         | |- context [(?a <=? ?b)%nat] =>
             destruct (Nat.leb_spec a b); cbn [andb orb negb]; try lia
         | |- context [(?a <? ?b)%nat] =>
             destruct (Nat.ltb_spec a b); cbn [andb orb negb]; try lia
         end;
  try reflexivity; try discriminate.

Lemma ws1_code c : ws1 c = true -> (code c <= 32)%nat.
Proof. unfold ws1. split_bools. Qed.

Lemma ws2_after_ws1 c d : ws1 d = true -> ws2 c d = false.
Proof.
  intros H. apply ws1_code in H. unfold ws2.
  destruct (Nat.eqb_spec (code d) 160); [lia|]. apply andb_false_r.
Qed.

Lemma ws3_mid_ws1 c d f : ws1 d = true -> ws3 c d f = false.
Proof. intros H. apply ws1_code in H. unfold ws3. split_bools. Qed.

Lemma ws3_last_ws1 c d f : ws1 f = true -> ws3 c d f = false.
Proof. intros H. apply ws1_code in H. unfold ws3. split_bools. Qed.

Lemma visible_code c :
  visible c = true -> (code c < 128)%nat /\ ws1 c = false.
Proof.
  unfold visible. intros H. apply andb_true_iff in H. destruct H as [H1 H2].
  apply Nat.ltb_lt in H1. apply negb_true_iff in H2. auto.
Qed.

Lemma ws2_visible c d : visible c = true -> ws2 c d = false.
Proof.
  intros H. apply visible_code in H. destruct H as [H _]. unfold ws2.
  destruct (Nat.eqb_spec (code c) 194); [lia|]. reflexivity.
Qed.

Lemma ws3_visible c d f : visible c = true -> ws3 c d f = false.
Proof.
  intros H. apply visible_code in H. destruct H as [H _]. unfold ws3.
  split_bools.
Qed.

Lemma trimStart_visible c r :
  visible c = true -> trimStart (String c r) = String c r.
Proof.
  intros H. cbn [trimStart].
  rewrite (proj2 (visible_code c H)).
  destruct r as [|d r1]; [reflexivity|]. rewrite (ws2_visible c d H).
  destruct r1 as [|f r2]; [reflexivity|]. now rewrite (ws3_visible c d f H).
Qed.

Lemma trimStart_blank_prefix a s :
  blank a = true -> trimStart (a ++ s)%string = trimStart s.
Proof.
  induction a as [|c a IH]; [reflexivity|]. cbn [blank]. intros H.
  apply andb_true_iff in H. destruct H as [Hc Ha].
  change (String c a ++ s)%string with (String c (a ++ s)%string).
  cbn [trimStart]. rewrite Hc. now apply IH.
Qed.

Lemma trimStart_blank b : blank b = true -> trimStart b = "".
Proof.
  induction b as [|c b IH]; [reflexivity|]. cbn [blank]. intros H.
  apply andb_true_iff in H. destruct H as [Hc Hb].
  cbn [trimStart]. rewrite Hc. now apply IH.
Qed.

Lemma trimStart_skip1 c r : ws1 c = true -> trimStart (String c r) = trimStart r.
Proof. intros H. cbn [trimStart]. now rewrite H. Qed.

Lemma trimStart_skip2 c d r :
  ws1 c = false -> ws2 c d = true ->
  trimStart (String c (String d r)) = trimStart r.
Proof. intros H1 H2. cbn [trimStart]. now rewrite H1, H2. Qed.

Lemma trimStart_skip3 c d f r :
  ws1 c = false -> ws2 c d = false -> ws3 c d f = true ->
  trimStart (String c (String d (String f r))) = trimStart r.
Proof. intros H1 H2 H3. cbn [trimStart]. now rewrite H1, H2, H3. Qed.

Lemma trimStart_keep1 c : ws1 c = false -> trimStart (String c "") = String c "".
Proof. intros H1. cbn [trimStart]. now rewrite H1. Qed.

Lemma trimStart_keep2 c d :
  ws1 c = false -> ws2 c d = false ->
  trimStart (String c (String d "")) = String c (String d "").
Proof. intros H1 H2. cbn [trimStart]. now rewrite H1, H2. Qed.

Lemma trimStart_keep3 c d f r :
  ws1 c = false -> ws2 c d = false -> ws3 c d f = false ->
  trimStart (String c (String d (String f r)))
  = String c (String d (String f r)).
Proof. intros H1 H2 H3. cbn [trimStart]. now rewrite H1, H2, H3. Qed.

(** Whether everything is trimmed away does not depend on a blank tail. *)
Lemma trimStart_empty_blank_tail b :
  blank b = true ->
  forall n x, String.length x <= n ->
    (trimStart (x ++ b)%string =? "") = (trimStart x =? "").
Proof.
  intros Hb. induction n as [|n IH]; intros x Hx.
  - destruct x; [|cbn in Hx; lia]. cbn [append].
    now rewrite (trimStart_blank b Hb).
  - destruct x as [|c r].
    { cbn [append]. now rewrite (trimStart_blank b Hb). }
    cbn [String.length] in Hx. cbn [append].
    destruct (ws1 c) eqn:W1.
    { rewrite !trimStart_skip1 by assumption. apply IH. lia. }
    destruct r as [|d r1].
    { cbn [append]. rewrite (trimStart_keep1 c W1).
      destruct b as [|d b1]; [now rewrite (trimStart_keep1 c W1)|].
      cbn [blank] in Hb. apply andb_true_iff in Hb. destruct Hb as [Hd Hb1].
      pose proof (ws2_after_ws1 c d Hd) as W2.
      destruct b1 as [|f b2]; [now rewrite (trimStart_keep2 c d W1 W2)|].
      now rewrite (trimStart_keep3 c d f b2 W1 W2 (ws3_mid_ws1 c d f Hd)). }
    cbn [String.length] in Hx. cbn [append].
    destruct (ws2 c d) eqn:W2.
    { rewrite !(trimStart_skip2 c d) by assumption. apply IH. lia. }
    destruct r1 as [|f r2].
    { cbn [append]. rewrite (trimStart_keep2 c d W1 W2).
      destruct b as [|f b2]; [now rewrite (trimStart_keep2 c d W1 W2)|].
      cbn [blank] in Hb. apply andb_true_iff in Hb. destruct Hb as [Hf _].
      now rewrite (trimStart_keep3 c d f b2 W1 W2 (ws3_last_ws1 c d f Hf)). }
    cbn [String.length] in Hx. cbn [append].
    destruct (ws3 c d f) eqn:W3.
    { rewrite !(trimStart_skip3 c d f) by assumption. apply IH. lia. }
    now rewrite !(trimStart_keep3 c d f) by assumption.
Qed.

Lemma trimEnd_blank_tail b x :
  blank b = true -> trimEnd (x ++ b)%string = trimEnd x.
Proof.
  intros Hb. induction x as [|c r IH].
  - cbn [append]. destruct b as [|d b1]; [reflexivity|].
    cbn [trimEnd]. now rewrite (trimStart_blank _ Hb).
  - change (String c r ++ b)%string with (String c (r ++ b)%string).
    cbn [trimEnd].
    change (String c (r ++ b)%string) with (String c r ++ b)%string.
    rewrite (trimStart_empty_blank_tail b Hb _ (String c r) (le_n _)).
    now rewrite IH.
Qed.

(** A text that begins with a visible ASCII character and has nothing to
    trim at its end comes back unchanged from between blank margins. *)
Lemma trim_between_blanks a z c r :
  blank a = true ->
  blank z = true ->
  visible c = true ->
  trimEnd (String c r) = String c r ->
  trim (a ++ String c r ++ z)%string = String c r.
Proof.
  intros Ha Hz Hc Hend. unfold trim.
  rewrite (trimStart_blank_prefix a _ Ha).
  change (String c r ++ z)%string with (String c (r ++ z)%string).
  rewrite (trimStart_visible c _ Hc).
  change (String c (r ++ z)%string) with (String c r ++ z)%string.
  now rewrite (trimEnd_blank_tail z _ Hz).
Qed.

End TrimFacts.

(** X11. Blank margins do not matter to the routing: a button whose text
    content is one of the three recognised labels with any run of spaces,
    tabs and line breaks before and after it is routed exactly like a
    button with the bare label. *)
Theorem button_route_ignores_blank_margins (b : Elem * list Node)
  (a z : string) :
  blank a = true ->
  blank z = true ->
  (textContent_of (snd b) = (a ++ "Get Started" ++ z)%string
   \/ textContent_of (snd b) = (a ++ "Get a Quote" ++ z)%string ->
   button_route b
   = [mkListener (TheElement (uid (fst b))) "click" ContactButtonHandler])
  /\ (textContent_of (snd b) = (a ++ "View Work" ++ z)%string ->
      button_route b
      = [mkListener (TheElement (uid (fst b))) "click" PortfolioButtonHandler]).
Proof.
  intros Ha Hz.
  pose proof (TrimFacts.trim_between_blanks a z "G" "et Started" Ha Hz
                eq_refl eq_refl) as T1.
  pose proof (TrimFacts.trim_between_blanks a z "G" "et a Quote" Ha Hz
                eq_refl eq_refl) as T2.
  pose proof (TrimFacts.trim_between_blanks a z "V" "iew Work" Ha Hz
                eq_refl eq_refl) as T3.
  split.
  - intros [E|E]; unfold button_route, button_label; rewrite E.
    + change (a ++ "Get Started" ++ z)%string
        with (a ++ String "G" "et Started" ++ z)%string.
      rewrite T1. reflexivity.
    + change (a ++ "Get a Quote" ++ z)%string
        with (a ++ String "G" "et a Quote" ++ z)%string.
      rewrite T2. reflexivity.
  - intros E. unfold button_route, button_label. rewrite E.
    change (a ++ "View Work" ++ z)%string
      with (a ++ String "V" "iew Work" ++ z)%string.
    rewrite T3. reflexivity.
Qed.

(** ** The panel is captured at setup *)

Lemma select_first_matches c d x :
  select_first (mkSelector [] c) d = Some x ->
  matches_compound c (fst x) = true.
Proof.
  unfold select_first, select_all. cbn [context subject]. intros H.
  assert (Hin : In x (flat_map (select_node [] c) d)).
  { destruct (flat_map (select_node [] c) d); [discriminate|].
    injection H as <-. now left. }
  apply in_flat_map in Hin. destruct Hin as [k [_ Hk]].
  eapply select_node_matches; eauto.
Qed.

Lemma mobileMenu_hidden e :
  matches_compound (subject sel_mobileMenu) e = true ->
  DOMTokenList.contains "hidden" (classList e) = true.
Proof.
  cbn [sel_mobileMenu subject matches_compound forallb matches_simple].
  intros H. apply andb_true_iff in H. tauto.
Qed.

Lemma has_class_after_click token m w cl :
  classes_at m (dom w) = Some cl ->
  has_class token m (dom (after (menu_click (Some m)) w))
  = if DOMTokenList.mem token menu_tokens
    then negb (DOMTokenList.contains token cl)
    else DOMTokenList.contains token cl.
Proof.
  intros H. unfold after, has_class. rewrite menu_click_present.
  cbn [snd dom set_dom]. rewrite classes_at_toggled, H.
  cbn [option_map]. rewrite Nat.eqb_refl.
  apply TokenFacts.contains_toggle_all, TokenFacts.menu_tokens_NoDup.
Qed.

(** X12. The panel is looked up once, at setup, and the listener keeps the
    element it found.  After the first click that element no longer
    carries [hidden], so the selector ['.hidden.md\\:flex'] no longer finds
    it, and yet the next click acts on the same element and gives it
    [hidden] back. *)
Theorem menu_panel_captured_at_setup (w : World) (p : Elem * list Node) :
  select_first sel_mobileMenu (dom w) = Some p ->
  classes_at (uid_of p) (dom w) = Some (classList (fst p)) ->
  has_class "hidden" (uid_of p)
    (dom (after (menu_click (Some (uid_of p))) w)) = false
  /\ (forall q,
        select_first sel_mobileMenu
          (dom (after (menu_click (Some (uid_of p))) w)) = Some q ->
        classes_at (uid_of q) (dom (after (menu_click (Some (uid_of p))) w))
        = Some (classList (fst q)) ->
        uid_of q <> uid_of p)
  /\ has_class "hidden" (uid_of p)
       (dom (after (menu_click (Some (uid_of p)))
               (after (menu_click (Some (uid_of p))) w))) = true.
Proof.
  intros Hsel Hcl.
  pose proof (mobileMenu_hidden _ (select_first_matches _ _ _ Hsel)) as Hh.
  assert (H1 : has_class "hidden" (uid_of p)
                 (dom (after (menu_click (Some (uid_of p))) w)) = false).
  { rewrite (has_class_after_click _ _ _ _ Hcl).
    change (DOMTokenList.mem "hidden" menu_tokens) with true.
    cbn iota. now rewrite Hh. }
  split; [exact H1|]. split.
  - intros q Hq Hqcl Heq.
    pose proof (mobileMenu_hidden _ (select_first_matches _ _ _ Hq)) as Hqh.
    unfold has_class in H1. rewrite Heq in Hqcl. rewrite Hqcl in H1.
    congruence.
  - unfold has_class in H1 |- *.
    destruct (classes_at (uid_of p)
                (dom (after (menu_click (Some (uid_of p))) w)))
      as [cl1|] eqn:E1.
    + pose proof (has_class_after_click "hidden" _ _ _ E1) as H2.
      unfold has_class in H2.
      change (DOMTokenList.mem "hidden" menu_tokens) with true in H2.
      cbn iota in H2.
      destruct (classes_at (uid_of p)
                  (dom (after (menu_click (Some (uid_of p)))
                          (after (menu_click (Some (uid_of p))) w)))).
      * rewrite H2, H1. reflexivity.
      * rewrite H1 in H2. discriminate.
    + unfold after in E1. rewrite menu_click_present in E1.
      cbn [snd dom set_dom] in E1. rewrite classes_at_toggled, Hcl in E1.
      discriminate.
Qed.

(** ** The further properties on the sample pages *)

Module MoreInstances.
Import Samples.


Lemma link_click_without_target_is_silent_witness :
  (href_now 7 (page_load host page) = Some "#"
   /\ invoke host (LinkClickHandler 7) (page_load host page)
      = emit [PreventDefault] (page_load host page))
  /\ (href_now 6 (set_dom page_sections_removed (page_load host page))
      = Some "#contact"
      /\ invoke host (LinkClickHandler 6)
           (set_dom page_sections_removed (page_load host page))
         = emit [PreventDefault]
             (set_dom page_sections_removed (page_load host page))).
Proof.
  split; (split; [reflexivity|]).
  - apply (link_click_without_target_is_silent host 7 (page_load host page)).
    right. right. left. reflexivity.
  - apply (link_click_without_target_is_silent host 6
             (set_dom page_sections_removed (page_load host page))).
    right. right. right. exists "#contact", "contact".
    split; [reflexivity|]. split; [reflexivity|].
    intros e He. vm_compute in He.
    repeat (destruct He as [<-|He]; [reflexivity|]). destruct He.
Defined.

Lemma link_click_digit_fragment_faults_witness :
  href_now 8 (page_load host page) = Some "#2024"
  /\ invoke host (LinkClickHandler 8) (page_load host page)
     = emit [PreventDefault; Uncaught (SyntaxError "#2024")]
         (page_load host page).
Proof.
  split; [reflexivity|].
  apply (proj2 (link_click_digit_fragment_faults host 8 (page_load host page)
                  "2" "024" eq_refl eq_refl eq_refl)).
Defined.

Lemma menu_clicks_flip_the_ten_tokens_witness :
  classes_at 4 (dom (fresh page)) = Some closed_panel
  /\ exists cl',
       classes_at 4 (dom (menu_clicks 3 (Some 4) (fresh page))) = Some cl'
       /\ DOMTokenList.contains "hidden" cl' = false
       /\ DOMTokenList.contains "w-full" cl' = true
       /\ DOMTokenList.contains "md:flex" cl' = true.
Proof.
  split; [reflexivity|].
  destruct (proj1 (menu_clicks_flip_the_ten_tokens 3 (fresh page) 4
                     closed_panel eq_refl)) as [cl' [E F]].
  exists cl'. split; [exact E|].
  split; [|split]; rewrite F; reflexivity.
Defined.



Lemma button_route_ignores_blank_margins_witness :
  blank "  " = true
  /\ blank " " = true
  /\ button_route (el 11 "button" [] [], [Text "  Get Started "])
     = [mkListener (TheElement 11) "click" ContactButtonHandler].
Proof.
  split; [reflexivity|]. split; [reflexivity|].
  apply (proj1 (button_route_ignores_blank_margins
                  (el 11 "button" [] [], [Text "  Get Started "])
                  "  " " " eq_refl eq_refl)).
  left. reflexivity.
Defined.

Lemma menu_panel_captured_at_setup_witness :
  option_map uid_of (select_first sel_mobileMenu page) = Some 4
  /\ has_class "hidden" 4
       (dom (after (menu_click (Some 4)) (fresh page))) = false
  /\ has_class "hidden" 4
       (dom (after (menu_click (Some 4))
               (after (menu_click (Some 4)) (fresh page)))) = true.
Proof.
  split; [reflexivity|].
  destruct (menu_panel_captured_at_setup (fresh page)
              (el 4 "div" closed_panel [],
               [link 5 "#services" "Services";
                link 6 "#contact" "Contact";
                link 7 "#" "Top";
                link 8 "#2024" "2024"])
              eq_refl eq_refl) as [H1 [_ H2]].
  split; [exact H1|exact H2].
Defined.

End MoreInstances.
